(** * Blog content API: the post store accessor of [routes/api.js]

    The four read operations of the REST API ([getAllBlogPosts],
    [getBlogPostsByTag], [getFiveNewestPosts], [getBlogPostByUrlTitle]) are
    embedded over a small model of the Mongoose query builder they are
    written against: a query collects conditions, a projection, a sort
    order and a limit, and [exec] hands [(error, result)] to its callback. *)

From Stdlib Require Import ZArith List Ascii Sorting.Sorted Sorting.Permutation.
From stdpp Require Import base gmap strings list fin_maps sorting.

Local Open Scope string_scope.
Local Open Scope Z_scope.

(** ** Data model *)

(** A document of the "posts" collection: the [_id] every stored document
    has, then one field per key of [BlogPostSchema] (models/post.js). *)
Record Post := {
  _id : string;
  id : string;
  title : string;
  urlTitle : string;
  dateTimestamp : Z;
  tags : list string;
  thumbnailImageUrl : string;
  markdownContent : string;
  seoTitleTag : string;
  seoMetaDescription : string
}.

(** The values a key of a post object holds: String, Number, Array. *)
Inductive Value :=
| VStr (s : string)
| VNum (n : Z)
| VArr (l : list string).

(** What a key of a response object holds: [true], an array of post
    objects, or one post object. *)
Inductive Payload :=
| PTrue
| PPosts (posts : list (gmap string Value))
| PPost (post : gmap string Value).

(** The collection as the driver sees it: the query fails, or it runs over
    the stored documents (in their natural order). *)
Inductive Storage :=
| Unavailable (error : string)
| Available (docs : list Post).

(** The post as a JS object, every key present. *)
Definition toObject (p : Post) : gmap string Value :=
  {[ "_id" := VStr (_id p);
     "id" := VStr (id p);
     "title" := VStr (title p);
     "urlTitle" := VStr (urlTitle p);
     "dateTimestamp" := VNum (dateTimestamp p);
     "tags" := VArr (tags p);
     "thumbnailImageUrl" := VStr (thumbnailImageUrl p);
     "markdownContent" := VStr (markdownContent p);
     "seoTitleTag" := VStr (seoTitleTag p);
     "seoMetaDescription" := VStr (seoMetaDescription p) ]}.

(** ** The query builder *)

(** The three shapes of filter entry that api.js writes. *)
Inductive Condition :=
| TagsIs (tag : string)             (* { tags: tag } *)
| DateTimestampLte (bound : Z)      (* { dateTimestamp: { $lte: bound } } *)
| UrlTitleIs (u : string).          (* { urlTitle: u } *)

(** [{ tags: tag }] on an array field holds when some element equals
    [tag]; the other two compare the field itself. *)
Definition holds (c : Condition) (p : Post) : bool :=
  match c with
  | TagsIs tag => existsb (String.eqb tag) (tags p)
  | DateTimestampLte bound => dateTimestamp p <=? bound
  | UrlTitleIs u => String.eqb (urlTitle p) u
  end.

(** A filter object is the conjunction of its entries. *)
Definition matches (cs : list Condition) (p : Post) : bool :=
  forallb (fun c => holds c p) cs.

Record Query := {
  conditions : list Condition;
  projection : option string;
  sortOrder : option Z;
  limitTo : option nat
}.

(** What the operations read from their surroundings: the clock behind
    [moment().unix()], the collection behind [BlogPostModel], and how the
    database orders documents whose sort keys are equal. A sort on
    [dateTimestamp] alone leaves that order open, and the database may
    settle it differently from one query to the next: [ties q a b] tells
    whether, for query [q], document [a] goes before a document [b] of
    the same date that is stored after it. *)
Record Env := {
  unix : Z;
  collection : Storage;
  ties : Query -> Post -> Post -> bool
}.

(** [{ dateTimestamp: dir }]: [-1] is newest first, [1] oldest first; on
    equal dates [tie] decides. *)
Definition precedes (dir : Z) (tie : Post -> Post -> bool) (a b : Post) : bool :=
  if dateTimestamp a =? dateTimestamp b then tie a b
  else if dir <? 0 then dateTimestamp b <? dateTimestamp a
  else dateTimestamp a <? dateTimestamp b.

(** Insertion: [a] goes in front of the first element it precedes. *)
Fixpoint place (dir : Z) (tie : Post -> Post -> bool) (a : Post)
    (l : list Post) : list Post :=
  match l with
  | [] => [a]
  | b :: rest => if precedes dir tie a b then a :: b :: rest
                 else b :: place dir tie a rest
  end.

Fixpoint sortByDate (dir : Z) (tie : Post -> Post -> bool)
    (l : list Post) : list Post :=
  match l with
  | [] => []
  | a :: rest => place dir tie a (sortByDate dir tie rest)
  end.

(** A projection string lists the keys to keep, separated by spaces, and
    [_id] is kept along with them unless it is excluded by name; with no
    projection the whole object is returned. *)
Definition select (proj : option string) (p : Post) : gmap string Value :=
  match proj with
  | None => toObject p
  | Some keys =>
      filter (fun kv => kv.1 = "_id" \/ kv.1 ∈ String.words keys) (toObject p)
  end.

(** The documents a query yields: filter, then sort, then limit, then
    project. *)
Definition run (tie : Post -> Post -> bool) (docs : list Post) (q : Query)
    : list (gmap string Value) :=
  let found := List.filter (matches (conditions q)) docs in
  let sorted := match sortOrder q with
                | Some dir => sortByDate dir tie found
                | None => found
                end in
  let limited := match limitTo q with
                 | Some n => firstn n sorted
                 | None => sorted
                 end in
  map (select (projection q)) limited.

Module BlogPostModel.

Definition find (cs : list Condition) (proj : string) : Query :=
  {| conditions := cs; projection := Some proj;
     sortOrder := None; limitTo := None |}.

Definition findOne (cs : list Condition) : Query :=
  {| conditions := cs; projection := None;
     sortOrder := None; limitTo := Some 1%nat |}.

End BlogPostModel.

Definition sort (dir : Z) (q : Query) : Query :=
  {| conditions := conditions q; projection := projection q;
     sortOrder := Some dir; limitTo := limitTo q |}.

Definition limit (n : nat) (q : Query) : Query :=
  {| conditions := conditions q; projection := projection q;
     sortOrder := sortOrder q; limitTo := Some n |}.

(** [exec] of a [find] query: the callback gets [(error, posts)]. *)
Definition exec {R} (env : Env)
    (callback : option string -> list (gmap string Value) -> R)
    (q : Query) : R :=
  match collection env with
  | Unavailable e => callback (Some e) []
  | Available docs => callback None (run (ties env q) docs q)
  end.

(** [exec] of a [findOne] query: the callback gets [(error, post)], with
    [post] null when nothing matches. *)
Definition execOne {R} (env : Env)
    (callback : option string -> option (gmap string Value) -> R)
    (q : Query) : R :=
  match collection env with
  | Unavailable e => callback (Some e) None
  | Available docs => callback None (head (run (ties env q) docs q))
  end.

(** Method chaining: [q |> m] is [q.m]. *)
Notation "q '|>' f" := (f q) (at level 45, left associativity, only parsing).

(** ** The API (routes/api.js) *)

Definition getAllBlogPosts (env : Env) {R}
    (callback : gmap string Payload -> R) : R :=
  let now := unix env in
  BlogPostModel.find [DateTimestampLte now]
      "title urlTitle dateTimestamp tags thumbnailImageUrl"
    |> sort (-1)
    |> exec env (fun error posts =>
         match error with
         | Some _ => callback {[ "getDataError" := PTrue ]}
         | None => callback {[ "success" := PTrue; "posts" := PPosts posts ]}
         end).

Definition getBlogPostsByTag (tag : string) (env : Env) {R}
    (callback : gmap string Payload -> R) : R :=
  let now := unix env in
  BlogPostModel.find [TagsIs tag; DateTimestampLte now]
      "title urlTitle dateTimestamp tags thumbnailImageUrl"
    |> sort (-1)
    |> exec env (fun error posts =>
         match error with
         | Some _ => callback {[ "getDataError" := PTrue ]}
         | None => callback {[ "success" := PTrue; "posts" := PPosts posts ]}
         end).

Definition getFiveNewestPosts (env : Env) {R}
    (callback : gmap string Payload -> R) : R :=
  let now := unix env in
  BlogPostModel.find [DateTimestampLte now]
      "title urlTitle dateTimestamp tags thumbnailImageUrl"
    |> sort (-1)
    |> limit 5
    |> exec env (fun error posts =>
         match error with
         | Some _ => callback {[ "getdataError" := PTrue ]}
         | None => callback {[ "success" := PTrue; "posts" := PPosts posts ]}
         end).

Section Showdown.

(** [new showdown.Converter().makeHtml]: Markdown source to HTML. *)
Variable makeHtml : string -> string.

(** [post.markdownContent = makeHtml(post.markdownContent)] on the found
    object; [makeHtml] hands back a missing text as it is. *)
Definition renderMarkdown (post : gmap string Value) : gmap string Value :=
  match post !! "markdownContent" with
  | Some (VStr md) => <[ "markdownContent" := VStr (makeHtml md) ]> post
  | _ => post
  end.

Definition getBlogPostByUrlTitle (u : string) (env : Env) {R}
    (callback : gmap string Payload -> R) : R :=
  BlogPostModel.findOne [UrlTitleIs u]
    |> execOne env (fun error post =>
         match error, post with
         | Some _, _ => callback {[ "getDataError" := PTrue ]}
         | None, None => callback {[ "notFoundError" := PTrue ]}
         | None, Some post =>
             callback {[ "success" := PTrue;
                         "post" := PPost (renderMarkdown post) ]}
         end).

End Showdown.

(** ** Reading a response *)

(** An operation, seen as what it does with the callback it is given. *)
Definition Operation := forall R : Type, (gmap string Payload -> R) -> R.

(** [op] delivers [e]: whatever the callback, the call amounts to the
    callback applied, once, to [e]. *)
Definition delivers (op : Operation) (e : gmap string Payload) : Prop :=
  forall (R : Type) (callback : gmap string Payload -> R), op R callback = callback e.

(** The object literals of api.js. *)
Definition getDataError : gmap string Payload := {[ "getDataError" := PTrue ]}.
Definition notFoundError : gmap string Payload := {[ "notFoundError" := PTrue ]}.
Definition successPosts (posts : list (gmap string Value)) : gmap string Payload :=
  {[ "success" := PTrue; "posts" := PPosts posts ]}.
Definition successPost (post : gmap string Value) : gmap string Payload :=
  {[ "success" := PTrue; "post" := PPost post ]}.

(** The flags a response carries, among the three the API documents. *)
Definition flags (e : gmap string Payload) : list string :=
  List.filter (fun k => match e !! k with Some PTrue => true | _ => false end)
    ["getDataError"; "notFoundError"; "success"].

(** The keys of a list result. *)
Definition listKeys : string := "title urlTitle dateTimestamp tags thumbnailImageUrl".

(** The object a list result holds for post [p]. *)
Definition listed (p : Post) : gmap string Value := select (Some listKeys) p.

(** The publish date a result object shows. *)
Definition shownDate (d : gmap string Value) : option Z :=
  match d !! "dateTimestamp" with
  | Some (VNum t) => Some t
  | _ => None
  end.

(** Whether a result object shows [tag] among its tags. *)
Definition showsTag (tag : string) (d : gmap string Value) : bool :=
  match d !! "tags" with
  | Some (VArr l) => existsb (String.eqb tag) l
  | _ => false
  end.

(** [d1] may come before [d2] in a newest-first list. *)
Definition notOlder (d1 d2 : gmap string Value) : Prop :=
  exists t1 t2, shownDate d1 = Some t1 /\ shownDate d2 = Some t2 /\ t2 <= t1.

(** The three list queries. *)
Definition allQuery (now : Z) : Query :=
  sort (-1) (BlogPostModel.find [DateTimestampLte now] listKeys).
Definition tagQuery (tag : string) (now : Z) : Query :=
  sort (-1) (BlogPostModel.find [TagsIs tag; DateTimestampLte now] listKeys).
Definition fiveQuery (now : Z) : Query := limit 5 (allQuery now).

(** The stored posts a query with conditions [cs] finds, newest first,
    equal dates ordered by [tie]. *)
Definition found (tie : Post -> Post -> bool) (cs : list Condition)
    (docs : list Post) : list Post :=
  sortByDate (-1) tie (List.filter (matches cs) docs).

(** The posts published at time [now], newest first. *)
Definition published (tie : Post -> Post -> bool) (now : Z)
    (docs : list Post) : list Post :=
  found tie [DateTimestampLte now] docs.

(** [a] is dated no earlier than [b]. *)
Definition newerOrSame (a b : Post) : Prop := dateTimestamp b <= dateTimestamp a.

(** Whether a result object shows a date at or before [now]. *)
Definition shownBy (now : Z) (d : gmap string Value) : bool :=
  match shownDate d with
  | Some t => t <=? now
  | None => false
  end.

(** ** The connection string (index.js) *)

(** A [${process.env.NAME}] slot of a template literal: the variable's
    text, or the text of [undefined] when it is not set. *)
Definition interpolate (processEnv : gmap string string) (name : string) : string :=
  match processEnv !! name with
  | Some text => text
  | None => "undefined"
  end.

Definition mongoString (processEnv : gmap string string) : string :=
  "mongodb+srv://" ++ interpolate processEnv "DB_USERNAME" ++ ":"
    ++ interpolate processEnv "DB_PASSWORD"
    ++ "@coding-blog.nk8osod.mongodb.net/blog?retryWrites=true&w=majority".

(** Whether a text has a colon in it. *)
Fixpoint hasColon (s : string) : bool :=
  match s with
  | EmptyString => false
  | String c rest => if Ascii.eqb c ":"%char then true else hasColon rest
  end.

(** ** A sample store

    Seven posts, read at time 1000: "b" is dated 10000 seconds ahead, the
    other six are published, "d" and "f" on the same date. Posts of one
    date come in stored order. *)

Definition samplePost (slug : string) (date : Z) (tgs : list string) : Post :=
  {| _id := "oid-" ++ slug;
     id := "id-" ++ slug;
     title := "Post " ++ slug;
     urlTitle := slug;
     dateTimestamp := date;
     tags := tgs;
     thumbnailImageUrl := "/assets/" ++ slug ++ ".png";
     markdownContent := "# " ++ slug;
     seoTitleTag := "Title of " ++ slug;
     seoMetaDescription := "About " ++ slug |}.

Definition sampleDocs : list Post :=
  [ samplePost "a" 1000 ["js"];
    samplePost "b" 11000 ["js"; "css"];
    samplePost "c" 400 ["css"];
    samplePost "d" 900 ["js"];
    samplePost "e" 500 [];
    samplePost "f" 900 ["html"];
    samplePost "g" 100 ["js"] ].

Definition storedOrder : Query -> Post -> Post -> bool := fun _ _ _ => true.

Definition sampleEnv : Env :=
  {| unix := 1000; collection := Available sampleDocs; ties := storedOrder |}.

(** A store holding only the future-dated post. *)
Definition futureEnv : Env :=
  {| unix := 1000;
     collection := Available [samplePost "b" 11000 ["js"; "css"]];
     ties := storedOrder |}.

Definition downEnv : Env :=
  {| unix := 1000; collection := Unavailable "no connection"; ties := storedOrder |}.

(** Two posts of one date and one tag, over a database that keeps the
    stored order of equal dates for the plain full listing and turns it
    round for a query with a limit or a second condition. *)
Definition tiedDocs : list Post :=
  [ samplePost "d" 900 ["js"]; samplePost "f" 900 ["js"] ].

Definition tiedEnv : Env :=
  {| unix := 1000;
     collection := Available tiedDocs;
     ties := fun q _ _ =>
       match conditions q, limitTo q with
       | [_], None => true
       | _, _ => false
       end |}.

(** A stand-in for the Markdown converter. *)
Definition toyHtml (md : string) : string := "<p>" ++ md ++ "</p>".

(** ** The sort *)

Section Sorting.

Variable tie : Post -> Post -> bool.

Lemma precedes_newerOrSame a b :
  precedes (-1) tie a b = true -> newerOrSame a b.
Proof.
  unfold precedes, newerOrSame. simpl.
  destruct (dateTimestamp a =? dateTimestamp b) eqn:He; lia.
Qed.

Lemma not_precedes_newerOrSame a b :
  precedes (-1) tie a b = false -> newerOrSame b a.
Proof.
  unfold precedes, newerOrSame. simpl.
  destruct (dateTimestamp a =? dateTimestamp b) eqn:He; lia.
Qed.

Lemma In_place dir a x l : In x (place dir tie a l) <-> x = a \/ In x l.
Proof.
  induction l as [|b rest IH]; simpl.
  - intuition.
  - destruct (precedes dir tie a b); simpl; [intuition|].
    rewrite IH. intuition.
Qed.

Lemma In_sortByDate dir x l : In x (sortByDate dir tie l) <-> In x l.
Proof.
  induction l as [|a rest IH]; simpl; [tauto|].
  rewrite In_place, IH. intuition.
Qed.

Lemma place_Permutation dir a l : Permutation (place dir tie a l) (a :: l).
Proof.
  induction l as [|b rest IH]; simpl; [done|].
  destruct (precedes dir tie a b); [done|].
  rewrite IH. apply perm_swap.
Qed.

Lemma sortByDate_Permutation dir l : Permutation (sortByDate dir tie l) l.
Proof.
  induction l as [|a rest IH]; simpl; [done|].
  rewrite place_Permutation. by constructor.
Qed.

(** Whatever [tie] says, insertion keeps a newest-first list newest
    first. *)
Lemma place_sorted a l :
  StronglySorted newerOrSame l -> StronglySorted newerOrSame (place (-1) tie a l).
Proof.
  induction 1 as [|b rest Hs IH Hb]; simpl.
  - repeat constructor.
  - destruct (precedes (-1) tie a b) eqn:Hab.
    + apply precedes_newerOrSame in Hab.
      constructor; [by constructor|].
      constructor; [exact Hab|].
      eapply Forall_impl; [exact Hb|].
      intros c Hc. unfold newerOrSame in *. lia.
    + apply not_precedes_newerOrSame in Hab.
      constructor; [exact IH|].
      apply List.Forall_forall. intros c Hc. apply In_place in Hc as [->|Hc].
      * done.
      * by apply (proj1 (List.Forall_forall _ _) Hb).
Qed.

Lemma sortByDate_sorted l : StronglySorted newerOrSame (sortByDate (-1) tie l).
Proof. induction l; simpl; [constructor | by apply place_sorted]. Qed.

End Sorting.

(** ** Lists *)

(** Sortedness carries over along a map that respects the orders. *)
Lemma StronglySorted_map {A B} (RA : A -> A -> Prop) (RB : B -> B -> Prop)
    (f : A -> B) l :
  (forall a b, RA a b -> RB (f a) (f b)) ->
  StronglySorted RA l -> StronglySorted RB (map f l).
Proof.
  intros Hf. induction 1 as [|a l Hs IH Ha]; simpl; constructor; [done|].
  apply List.Forall_forall. intros b Hb. apply in_map_iff in Hb as (c & <- & Hc).
  apply Hf. by apply (proj1 (List.Forall_forall _ _) Ha).
Qed.

Lemma In_firstn {A} (x : A) n l : In x (firstn n l) -> In x l.
Proof.
  revert n. induction l as [|c l IH]; intros [|n]; simpl; try tauto.
  intros [->|Hb]; [by left | right; by apply (IH n)].
Qed.

Lemma StronglySorted_firstn {A} (RA : A -> A -> Prop) n l :
  StronglySorted RA l -> StronglySorted RA (firstn n l).
Proof.
  intros Hs. revert n. induction Hs as [|a l Hs IH Ha]; intros [|n]; simpl;
    try constructor; [apply IH|].
  apply List.Forall_forall. intros b Hb.
  apply (proj1 (List.Forall_forall _ _) Ha). by apply In_firstn in Hb.
Qed.

Lemma StronglySorted_filter {A} (RA : A -> A -> Prop) (f : A -> bool) l :
  StronglySorted RA l -> StronglySorted RA (List.filter f l).
Proof.
  induction 1 as [|a l Hs IH Ha]; simpl; [constructor|].
  destruct (f a); [|done]. constructor; [done|].
  apply List.Forall_forall. intros b Hb. apply filter_In in Hb as [Hb _].
  by apply (proj1 (List.Forall_forall _ _) Ha).
Qed.

Lemma sorted_firstn_skipn {A} (RA : A -> A -> Prop) n l x y :
  StronglySorted RA l -> In x (firstn n l) -> In y (skipn n l) -> RA x y.
Proof.
  intros Hs. revert n. induction Hs as [|a l Hs IH Ha]; intros [|n]; simpl; try tauto.
  intros [->|Hx] Hy.
  - apply (proj1 (List.Forall_forall _ _) Ha).
    rewrite <- (firstn_skipn n l). apply in_or_app. by right.
  - by apply (IH n).
Qed.

Lemma filter_filter_andb {A} (f g : A -> bool) l :
  List.filter (fun x => f x && g x) l = List.filter f (List.filter g l).
Proof.
  induction l as [|a l IH]; simpl; [done|].
  destruct (g a); simpl; rewrite ?andb_false_r, ?andb_true_r;
    [destruct (f a)|]; by rewrite IH.
Qed.

Lemma filter_map_comm {A B} (f : A -> B) (g : B -> bool) l :
  List.filter g (map f l) = map f (List.filter (fun a => g (f a)) l).
Proof.
  induction l as [|a l IH]; simpl; [done|].
  destruct (g (f a)); simpl; by rewrite IH.
Qed.

Lemma filter_none {A} (f : A -> bool) l :
  (forall x, In x l -> f x = false) -> List.filter f l = [].
Proof.
  induction l as [|a l IH]; simpl; [done|]. intros H.
  rewrite (H a) by by left. apply IH. intros x Hx. apply H. by right.
Qed.

Lemma Permutation_filter {A} (f : A -> bool) l l' :
  Permutation l l' -> Permutation (List.filter f l) (List.filter f l').
Proof.
  induction 1 as [|x l l' _ IH|x y l|l l' l'' _ IH1 _ IH2]; simpl.
  - done.
  - destruct (f x); [by constructor | done].
  - destruct (f x), (f y); try done. apply perm_swap.
  - by rewrite IH1.
Qed.

Lemma NoDup_map_filter {A B} (k : A -> B) (f : A -> bool) l :
  NoDup (map k l) -> NoDup (map k (List.filter f l)).
Proof.
  induction l as [|a l IH]; simpl; [done|].
  rewrite NoDup_cons. intros [Ha Hl]. destruct (f a); simpl; [|by apply IH].
  apply NoDup_cons. split; [|by apply IH].
  intros Hin. apply Ha. apply list_elem_of_In in Hin. apply list_elem_of_In.
  apply in_map_iff in Hin as (x & <- & Hx). apply filter_In in Hx as [Hx _].
  by apply in_map.
Qed.

Lemma NoDup_map_firstn {A B} (k : A -> B) n l :
  NoDup (map k l) -> NoDup (map k (firstn n l)).
Proof.
  revert n. induction l as [|a l IH]; intros [|n]; simpl; try done.
  - intros _. constructor.
  - rewrite !NoDup_cons. intros [Ha Hl]. split; [|by apply IH].
    intros Hin. apply Ha. apply list_elem_of_In in Hin. apply list_elem_of_In.
    apply in_map_iff in Hin as (x & <- & Hx). apply In_firstn in Hx.
    by apply in_map.
Qed.

Lemma NoDup_map_Permutation {A B} (k : A -> B) l l' :
  Permutation l l' -> NoDup (map k l) -> NoDup (map k l').
Proof.
  intros Hp Hl.
  assert (Permutation (map k l') (map k l)) as ->; [|done].
  by apply Permutation_map.
Qed.

(** In a list without repeated keys, the key tells the element. *)
Lemma NoDup_map_same_key {A B} (k : A -> B) l x y :
  NoDup (map k l) -> In x l -> In y l -> k x = k y -> x = y.
Proof.
  induction l as [|a l IH]; simpl; [done|].
  rewrite NoDup_cons. intros [Ha Hl] [->|Hx] [->|Hy] Hk; try done.
  - exfalso. apply Ha. rewrite Hk. by apply list_elem_of_In, in_map.
  - exfalso. apply Ha. rewrite <- Hk. by apply list_elem_of_In, in_map.
  - by apply IH.
Qed.

(** A newest-first arrangement of posts with pairwise different dates is
    the only one. *)
Lemma newest_first_unique l1 l2 :
  NoDup (map dateTimestamp l1) ->
  StronglySorted newerOrSame l1 -> StronglySorted newerOrSame l2 ->
  Permutation l1 l2 -> l1 = l2.
Proof.
  intros Hnd Hs1 Hs2 Hp. apply (StronglySorted_unique_strong newerOrSame); try done.
  intros x1 x2 Hx1 Hx2 H12 H21. apply (NoDup_map_same_key dateTimestamp l1); try done.
  - by apply list_elem_of_In.
  - apply list_elem_of_In. by rewrite Hp.
  - unfold newerOrSame in *. lia.
Qed.


(** ** What the list queries yield *)

Lemma In_found tie cs docs p :
  In p (found tie cs docs) <-> In p docs /\ matches cs p = true.
Proof. unfold found. by rewrite In_sortByDate, filter_In. Qed.

Lemma found_sorted tie cs docs : StronglySorted newerOrSame (found tie cs docs).
Proof. apply sortByDate_sorted. Qed.

Lemma found_Permutation tie cs docs :
  Permutation (found tie cs docs) (List.filter (matches cs) docs).
Proof. apply sortByDate_Permutation. Qed.

Lemma In_published tie now docs p :
  In p (published tie now docs) <-> In p docs /\ dateTimestamp p <= now.
Proof.
  unfold published. rewrite In_found. simpl.
  rewrite andb_true_r, Z.leb_le. tauto.
Qed.

Lemma published_sorted tie now docs :
  StronglySorted newerOrSame (published tie now docs).
Proof. apply found_sorted. Qed.

Lemma matches_tag_date tag now p :
  matches [TagsIs tag; DateTimestampLte now] p =
  existsb (String.eqb tag) (tags p) && matches [DateTimestampLte now] p.
Proof. reflexivity. Qed.

(** Whatever the order among equal dates, the tag query finds the
    published posts that carry the tag. *)
Lemma tagged_published tie tie' tag now docs :
  Permutation (found tie [TagsIs tag; DateTimestampLte now] docs)
    (List.filter (fun p => existsb (String.eqb tag) (tags p))
       (published tie' now docs)).
Proof.
  rewrite found_Permutation. unfold published.
  rewrite (Permutation_filter _ _ _ (found_Permutation tie' _ docs)).
  rewrite <- filter_filter_andb.
  erewrite filter_ext; [done|]. intros p. apply matches_tag_date.
Qed.

Lemma getAllBlogPosts_available env docs :
  collection env = Available docs ->
  delivers (@getAllBlogPosts env)
    (successPosts (map listed
       (published (ties env (allQuery (unix env))) (unix env) docs))).
Proof.
  intros Hc R callback. unfold getAllBlogPosts, exec. by rewrite Hc.
Qed.

Lemma getBlogPostsByTag_available tag env docs :
  collection env = Available docs ->
  delivers (@getBlogPostsByTag tag env)
    (successPosts (map listed
       (found (ties env (tagQuery tag (unix env)))
          [TagsIs tag; DateTimestampLte (unix env)] docs))).
Proof.
  intros Hc R callback. unfold getBlogPostsByTag, exec. by rewrite Hc.
Qed.

Lemma getFiveNewestPosts_available env docs :
  collection env = Available docs ->
  delivers (@getFiveNewestPosts env)
    (successPosts (map listed
       (firstn 5 (published (ties env (fiveQuery (unix env))) (unix env) docs)))).
Proof.
  intros Hc R callback. unfold getFiveNewestPosts, exec. by rewrite Hc.
Qed.

Lemma getAllBlogPosts_unavailable env err :
  collection env = Unavailable err -> delivers (@getAllBlogPosts env) getDataError.
Proof. intros Hc R callback. unfold getAllBlogPosts, exec. by rewrite Hc. Qed.

Lemma getBlogPostsByTag_unavailable tag env err :
  collection env = Unavailable err -> delivers (@getBlogPostsByTag tag env) getDataError.
Proof. intros Hc R callback. unfold getBlogPostsByTag, exec. by rewrite Hc. Qed.

Lemma getFiveNewestPosts_unavailable env err :
  collection env = Unavailable err ->
  delivers (@getFiveNewestPosts env) {[ "getdataError" := PTrue ]}.
Proof. intros Hc R callback. unfold getFiveNewestPosts, exec. by rewrite Hc. Qed.

(** An operation delivers one response. *)
Lemma delivers_unique op e1 e2 : delivers op e1 -> delivers op e2 -> e1 = e2.
Proof.
  intros H1 H2. rewrite <- (H1 _ (fun e => e)). apply (H2 _ (fun e => e)).
Qed.

Lemma successPosts_inj l1 l2 : successPosts l1 = successPosts l2 -> l1 = l2.
Proof.
  intros H. apply (f_equal (fun e => e !! "posts")) in H.
  change (Some (PPosts l1) = Some (PPosts l2)) in H. congruence.
Qed.

Lemma successPosts_flags l : flags (successPosts l) = ["success"].
Proof. reflexivity. Qed.

(** ** What a list result shows of a post *)

Lemma words_listKeys :
  String.words listKeys = ["title"; "urlTitle"; "dateTimestamp"; "tags"; "thumbnailImageUrl"].
Proof. reflexivity. Qed.

(** The keys a list result keeps. *)
Lemma kept_keys k :
  k = "_id" \/ k ∈ String.words listKeys <->
  k ∈ ["_id"; "title"; "urlTitle"; "dateTimestamp"; "tags"; "thumbnailImageUrl"].
Proof. rewrite words_listKeys, (elem_of_cons _ k "_id"). tauto. Qed.

Lemma listed_lookup_Some p k v :
  listed p !! k = Some v <->
  toObject p !! k = Some v /\ (k = "_id" \/ k ∈ String.words listKeys).
Proof. unfold listed, select. by rewrite map_lookup_filter_Some. Qed.

Lemma listed_lookup_kept p k :
  k = "_id" \/ k ∈ String.words listKeys -> listed p !! k = toObject p !! k.
Proof.
  intros Hk. destruct (toObject p !! k) as [v|] eqn:Hv.
  - by apply listed_lookup_Some.
  - destruct (listed p !! k) as [w|] eqn:Hw; [|done].
    apply listed_lookup_Some in Hw as [Hw _]. congruence.
Qed.

Lemma listed_lookup_dropped p k :
  k <> "_id" -> k ∉ String.words listKeys -> listed p !! k = None.
Proof.
  intros Hid Hk. destruct (listed p !! k) as [w|] eqn:Hw; [|done].
  apply listed_lookup_Some in Hw as [_ [Hw|Hw]]; contradiction.
Qed.

Lemma listed_is_Some p k :
  is_Some (listed p !! k) <-> k = "_id" \/ k ∈ String.words listKeys.
Proof.
  split.
  - intros [v Hv]. by apply listed_lookup_Some in Hv as [_ Hk].
  - intros Hk. rewrite listed_lookup_kept by done.
    apply kept_keys in Hk.
    repeat (apply elem_of_cons in Hk as [->|Hk]; [by eexists|]).
    by apply elem_of_nil in Hk.
Qed.

Lemma listed_urlTitle p : listed p !! "urlTitle" = Some (VStr (urlTitle p)).
Proof. reflexivity. Qed.

Lemma shownDate_listed p : shownDate (listed p) = Some (dateTimestamp p).
Proof. reflexivity. Qed.

Lemma showsTag_listed tag p :
  showsTag tag (listed p) = existsb (String.eqb tag) (tags p).
Proof. reflexivity. Qed.

Lemma shownBy_listed now p : shownBy now (listed p) = (dateTimestamp p <=? now).
Proof. reflexivity. Qed.

Lemma map_shownDate_listed ps :
  map shownDate (map listed ps) = map Some (map dateTimestamp ps).
Proof. rewrite !map_map. apply map_ext. intros p. apply shownDate_listed. Qed.

Lemma NoDup_shown_dates ps :
  NoDup (map shownDate (map listed ps)) -> NoDup (map dateTimestamp ps).
Proof.
  rewrite map_shownDate_listed. generalize (map dateTimestamp ps). intros l.
  induction l as [|t l IH]; simpl; [intros _; constructor|].
  rewrite !NoDup_cons. intros [Ht Hl]. split; [|by apply IH].
  intros Hin. apply Ht. apply list_elem_of_In. apply in_map.
  by apply list_elem_of_In.
Qed.

Lemma showsTag_spec tag d :
  showsTag tag d = true <-> exists ts, d !! "tags" = Some (VArr ts) /\ In tag ts.
Proof.
  unfold showsTag. destruct (d !! "tags") as [[s|n|ts]|].
  1,2,4: split; [done | by intros (ts & ? & _)].
  rewrite existsb_exists. split.
  - intros (t & Hin & Heq). apply String.eqb_eq in Heq as ->. by exists ts.
  - intros (ts' & [= <-] & Hin). exists tag. by rewrite String.eqb_refl.
Qed.

(** Listing keeps a newest-first order. *)
Lemma listing_newest_first ps :
  StronglySorted newerOrSame ps -> StronglySorted notOlder (map listed ps).
Proof.
  apply StronglySorted_map.
  intros a b Hab. exists (dateTimestamp a), (dateTimestamp b).
  by rewrite !shownDate_listed.
Qed.

(** Every successful list response is the listing of published posts,
    newest first. *)
Lemma list_response_shape env tag l :
  delivers (@getAllBlogPosts env) (successPosts l) \/
  delivers (@getBlogPostsByTag tag env) (successPosts l) \/
  delivers (@getFiveNewestPosts env) (successPosts l) ->
  exists docs ps,
    collection env = Available docs /\ l = map listed ps /\
    (forall p, In p ps -> In p docs /\ dateTimestamp p <= unix env) /\
    StronglySorted newerOrSame ps.
Proof.
  intros H. destruct (collection env) as [err|docs] eqn:Hc.
  - exfalso. destruct H as [H|[H|H]].
    + apply (delivers_unique _ _ _ (getAllBlogPosts_unavailable _ _ Hc)) in H.
      by apply (f_equal flags) in H.
    + apply (delivers_unique _ _ _ (getBlogPostsByTag_unavailable _ _ _ Hc)) in H.
      by apply (f_equal flags) in H.
    + apply (delivers_unique _ _ _ (getFiveNewestPosts_unavailable _ _ Hc)) in H.
      by apply (f_equal flags) in H.
  - exists docs. destruct H as [H|[H|H]].
    + apply (delivers_unique _ _ _ (getAllBlogPosts_available _ _ Hc)) in H.
      apply successPosts_inj in H. eexists. split; [done|]. split; [done|].
      split; [intros p; apply In_published | apply published_sorted].
    + apply (delivers_unique _ _ _ (getBlogPostsByTag_available tag _ _ Hc)) in H.
      apply successPosts_inj in H. eexists. split; [done|]. split; [done|]. split.
      * intros p Hp. apply In_found in Hp as [Hp Hm]. split; [done|].
        rewrite matches_tag_date in Hm. simpl in Hm. lia.
      * apply found_sorted.
    + apply (delivers_unique _ _ _ (getFiveNewestPosts_available _ _ Hc)) in H.
      apply successPosts_inj in H. eexists. split; [done|]. split; [done|]. split.
      * intros p Hp. apply In_firstn in Hp. by apply In_published in Hp.
      * apply StronglySorted_firstn, published_sorted.
Qed.

Lemma sample_all :
  delivers (@getAllBlogPosts sampleEnv)
    (successPosts (map listed
       [ samplePost "a" 1000 ["js"]; samplePost "d" 900 ["js"];
         samplePost "f" 900 ["html"]; samplePost "e" 500 [];
         samplePost "c" 400 ["css"]; samplePost "g" 100 ["js"] ])).
Proof. intros R callback. reflexivity. Defined.

Lemma sample_five :
  delivers (@getFiveNewestPosts sampleEnv)
    (successPosts (map listed
       [ samplePost "a" 1000 ["js"]; samplePost "d" 900 ["js"];
         samplePost "f" 900 ["html"]; samplePost "e" 500 [];
         samplePost "c" 400 ["css"] ])).
Proof. intros R callback. reflexivity. Defined.

Lemma sample_by_tag :
  delivers (@getBlogPostsByTag "js" sampleEnv)
    (successPosts (map listed
       [ samplePost "a" 1000 ["js"]; samplePost "d" 900 ["js"];
         samplePost "g" 100 ["js"] ])).
Proof. intros R callback. reflexivity. Defined.

(** ** The claims *)

(** C1. A post dated after the time of the query appears in no successful
    result of [getAllBlogPosts], [getBlogPostsByTag] or
    [getFiveNewestPosts]: its listing is not a member, and every object in
    the result shows a date at or before the query time. *)
Theorem future_posts_never_listed (env : Env) (tag : string) (p : Post)
    (l : list (gmap string Value)) :
  unix env < dateTimestamp p ->
  delivers (@getAllBlogPosts env) (successPosts l) \/
  delivers (@getBlogPostsByTag tag env) (successPosts l) \/
  delivers (@getFiveNewestPosts env) (successPosts l) ->
  ~ In (listed p) l /\
  Forall (fun d => exists t, shownDate d = Some t /\ t <= unix env) l.
Proof.
  intros Hfuture H.
  apply list_response_shape in H as (docs & ps & _ & -> & Hps & _). split.
  - intros Hin. apply in_map_iff in Hin as (q & Hq & Hin).
    apply (f_equal shownDate) in Hq. rewrite !shownDate_listed in Hq.
    apply Hps in Hin as [_ Hle]. injection Hq as Hq. lia.
  - apply List.Forall_forall. intros d Hd.
    apply in_map_iff in Hd as (q & <- & Hin).
    exists (dateTimestamp q). split; [apply shownDate_listed | by apply Hps].
Qed.

Lemma future_posts_never_listed_witness :
  ~ In (listed (samplePost "b" 11000 ["js"; "css"]))
       (map listed
          [ samplePost "a" 1000 ["js"]; samplePost "d" 900 ["js"];
            samplePost "f" 900 ["html"]; samplePost "e" 500 [];
            samplePost "c" 400 ["css"]; samplePost "g" 100 ["js"] ]) /\
  Forall (fun d => exists t, shownDate d = Some t /\ t <= 1000)
       (map listed
          [ samplePost "a" 1000 ["js"]; samplePost "d" 900 ["js"];
            samplePost "f" 900 ["html"]; samplePost "e" 500 [];
            samplePost "c" 400 ["css"]; samplePost "g" 100 ["js"] ]).
Proof.
  apply (future_posts_never_listed sampleEnv "js").
  - reflexivity.
  - left. exact sample_all.
Defined.

(** C7. Every successful result of the three list operations is ordered by
    [dateTimestamp], newest first: each object shows a date at least as
    late as every object after it. *)
Theorem list_results_newest_first (env : Env) (tag : string)
    (l : list (gmap string Value)) :
  delivers (@getAllBlogPosts env) (successPosts l) \/
  delivers (@getBlogPostsByTag tag env) (successPosts l) \/
  delivers (@getFiveNewestPosts env) (successPosts l) ->
  StronglySorted notOlder l.
Proof.
  intros H. apply list_response_shape in H as (docs & ps & _ & -> & _ & Hs).
  by apply listing_newest_first.
Qed.

Lemma list_results_newest_first_witness :
  StronglySorted notOlder
    (map listed
       [ samplePost "a" 1000 ["js"]; samplePost "d" 900 ["js"];
         samplePost "g" 100 ["js"] ]).
Proof.
  apply (list_results_newest_first sampleEnv "js").
  right. left. exact sample_by_tag.
Defined.






Lemma tied_all :
  delivers (@getAllBlogPosts tiedEnv)
    (successPosts (map listed [samplePost "d" 900 ["js"]; samplePost "f" 900 ["js"]])).
Proof. intros R callback. reflexivity. Defined.


Lemma tied_by_tag :
  delivers (@getBlogPostsByTag "js" tiedEnv)
    (successPosts (map listed [samplePost "f" 900 ["js"]; samplePost "d" 900 ["js"]])).
Proof. intros R callback. reflexivity. Defined.


(** C5, as the code has it. A successful result of [getBlogPostsByTag t]
    holds, up to order, the objects of the successful result of
    [getAllBlogPosts] over the same store at the same time whose tags
    array has [t] as a member, so each of its objects is in that result.
    It is that result filtered, in the same order, whenever no two
    objects there share a date. *)
Theorem by_tag_from_all (env : Env) (tag : string)
    (l : list (gmap string Value)) :
  delivers (@getBlogPostsByTag tag env) (successPosts l) ->
  exists all,
    delivers (@getAllBlogPosts env) (successPosts all) /\
    Permutation l (List.filter (showsTag tag) all) /\
    (forall d, In d l <->
       In d all /\ exists ts, d !! "tags" = Some (VArr ts) /\ In tag ts) /\
    (forall d, In d l -> In d all) /\
    (NoDup (map shownDate all) -> l = List.filter (showsTag tag) all).
Proof.
  intros H.
  pose proof (list_response_shape env tag l (or_intror (or_introl H)))
    as (docs & _ & Hc & _).
  apply (delivers_unique _ _ _ (getBlogPostsByTag_available tag _ _ Hc)) in H.
  apply successPosts_inj in H. subst l.
  set (A := found (ties env (tagQuery tag (unix env)))
              [TagsIs tag; DateTimestampLte (unix env)] docs).
  set (B := published (ties env (allQuery (unix env))) (unix env) docs).
  set (tagged := fun p : Post => existsb (String.eqb tag) (tags p)).
  assert (List.filter (showsTag tag) (map listed B) = map listed (List.filter tagged B))
    as Hfilter.
  { rewrite filter_map_comm. f_equal; apply filter_ext; intros p;
      by rewrite showsTag_listed. }
  assert (Permutation A (List.filter tagged B)) as HAB by apply tagged_published.
  assert (Permutation (map listed A) (List.filter (showsTag tag) (map listed B)))
    as Hperm.
  { rewrite Hfilter. by apply Permutation_map. }
  assert (forall d, In d (map listed A) <->
            In d (map listed B) /\ exists ts, d !! "tags" = Some (VArr ts) /\ In tag ts)
    as Hmem.
  { intros d. rewrite <- showsTag_spec, <- filter_In. split; intros Hd.
    - by apply (Permutation_in _ Hperm).
    - by apply (Permutation_in _ (Permutation_sym Hperm)). }
  exists (map listed B). split; [by apply getAllBlogPosts_available|].
  split; [exact Hperm|]. split; [exact Hmem|]. split.
  - intros d Hd. by apply Hmem in Hd as [Hd _].
  - intros Hnd. apply NoDup_shown_dates in Hnd. rewrite Hfilter. f_equal.
    apply newest_first_unique.
    + apply (NoDup_map_Permutation _ (List.filter tagged B)); [done|].
      by apply NoDup_map_filter.
    + apply found_sorted.
    + apply StronglySorted_filter, published_sorted.
    + exact HAB.
Qed.

Lemma by_tag_from_all_witness :
  exists all,
    delivers (@getAllBlogPosts sampleEnv) (successPosts all) /\
    Permutation
      (map listed
         [ samplePost "a" 1000 ["js"]; samplePost "d" 900 ["js"];
           samplePost "g" 100 ["js"] ]) (List.filter (showsTag "js") all) /\
    (forall d, In d (map listed
       [ samplePost "a" 1000 ["js"]; samplePost "d" 900 ["js"];
         samplePost "g" 100 ["js"] ]) <->
       In d all /\ exists ts, d !! "tags" = Some (VArr ts) /\ In "js" ts) /\
    (forall d, In d (map listed
       [ samplePost "a" 1000 ["js"]; samplePost "d" 900 ["js"];
         samplePost "g" 100 ["js"] ]) -> In d all) /\
    (NoDup (map shownDate all) ->
       map listed
         [ samplePost "a" 1000 ["js"]; samplePost "d" 900 ["js"];
           samplePost "g" 100 ["js"] ] = List.filter (showsTag "js") all).
Proof. exact (by_tag_from_all sampleEnv "js" _ sample_by_tag). Defined.

(** C5 as stated fails: over two posts of one date that both carry the
    tag, a database that orders them one way for the tag query and the
    other way for the full one gives a tag result that is not the full
    listing filtered. *)
Lemma by_tag_filter_counterexample :
  ~ (forall (env : Env) (tag : string) (l : list (gmap string Value)),
       delivers (@getBlogPostsByTag tag env) (successPosts l) ->
       exists all,
         delivers (@getAllBlogPosts env) (successPosts all) /\
         l = List.filter (showsTag tag) all).
Proof.
  intros H. destruct (H tiedEnv "js" _ tied_by_tag) as (all & Hall & Heq).
  apply (delivers_unique _ _ _ tied_all) in Hall. apply successPosts_inj in Hall.
  subst all.
  apply (f_equal (fun r => match r with o :: _ => o !! "urlTitle" | [] => None end))
    in Heq.
  vm_compute in Heq. discriminate Heq.
Qed.

(** C10. Over an available store, a list query that matches nothing
    delivers [{success: true, posts: []}]: when no post is published, from
    [getAllBlogPosts] and [getFiveNewestPosts]; when no published post
    carries the tag, from [getBlogPostsByTag]. That response carries
    neither [notFoundError] nor [getDataError]. *)
Theorem empty_match_delivers_empty_success (env : Env) (docs : list Post)
    (tag : string) :
  collection env = Available docs ->
  ((forall p, In p docs -> unix env < dateTimestamp p) ->
     delivers (@getAllBlogPosts env) (successPosts []) /\
     delivers (@getFiveNewestPosts env) (successPosts [])) /\
  ((forall p, In p docs -> dateTimestamp p <= unix env -> ~ In tag (tags p)) ->
     delivers (@getBlogPostsByTag tag env) (successPosts [])) /\
  successPosts [] !! "notFoundError" = None /\
  successPosts [] !! "getDataError" = None /\
  flags (successPosts []) = ["success"].
Proof.
  intros Hc. split; [|split; [|done]].
  - intros Hnone.
    assert (forall tie, published tie (unix env) docs = []) as Hp.
    { intros tie. unfold published, found. rewrite filter_none; [done|].
      intros p Hp. simpl. apply Hnone in Hp. lia. }
    pose proof (getAllBlogPosts_available _ _ Hc) as Hall.
    pose proof (getFiveNewestPosts_available _ _ Hc) as Hfive.
    rewrite Hp in Hall, Hfive. by split.
  - intros Hnone.
    pose proof (getBlogPostsByTag_available tag _ _ Hc) as Htag.
    unfold found in Htag. rewrite filter_none in Htag; [done|].
    intros p Hp. rewrite matches_tag_date.
    destruct (existsb (String.eqb tag) (tags p)) eqn:He; [|done].
    destruct (matches [DateTimestampLte (unix env)] p) eqn:Hm; [|done].
    apply existsb_exists in He as (t & Hin & Heq).
    apply String.eqb_eq in Heq as <-. simpl in Hm.
    destruct (Hnone p Hp); [lia|done].
Qed.

Lemma empty_match_delivers_empty_success_witness :
  (delivers (@getAllBlogPosts futureEnv) (successPosts []) /\
   delivers (@getFiveNewestPosts futureEnv) (successPosts [])) /\
  delivers (@getBlogPostsByTag "html" futureEnv) (successPosts []) /\
  successPosts [] !! "notFoundError" = None /\
  successPosts [] !! "getDataError" = None /\
  flags (successPosts []) = ["success"].
Proof.
  destruct (empty_match_delivers_empty_success futureEnv _ "html" eq_refl)
    as (Hall & Htag & Hrest).
  split; [|split; [|exact Hrest]].
  - apply Hall. intros p [<-|[]]. reflexivity.
  - apply Htag. intros p [<-|[]]. simpl. lia.
Defined.

(** ** The single-post lookup *)

Lemma head_run_findOne tie cs docs :
  head (run tie docs (BlogPostModel.findOne cs)) =
  option_map toObject (List.find (matches cs) docs).
Proof.
  unfold run. simpl. induction docs as [|a docs IH]; simpl; [done|].
  by destruct (matches cs a).
Qed.

Lemma renderMarkdown_toObject makeHtml p :
  renderMarkdown makeHtml (toObject p) =
  <[ "markdownContent" := VStr (makeHtml (markdownContent p)) ]> (toObject p).
Proof. reflexivity. Qed.

Section UrlTitle.

Variable makeHtml : string -> string.

Lemma getBlogPostByUrlTitle_unavailable u env err :
  collection env = Unavailable err ->
  delivers (@getBlogPostByUrlTitle makeHtml u env) getDataError.
Proof. intros Hc R callback. unfold getBlogPostByUrlTitle, execOne. by rewrite Hc. Qed.

Lemma getBlogPostByUrlTitle_missing u env docs :
  collection env = Available docs ->
  List.find (matches [UrlTitleIs u]) docs = None ->
  delivers (@getBlogPostByUrlTitle makeHtml u env) notFoundError.
Proof.
  intros Hc Hf R callback. unfold getBlogPostByUrlTitle, execOne.
  by rewrite Hc, head_run_findOne, Hf.
Qed.

Lemma getBlogPostByUrlTitle_found u env docs p :
  collection env = Available docs ->
  List.find (matches [UrlTitleIs u]) docs = Some p ->
  delivers (@getBlogPostByUrlTitle makeHtml u env)
    (successPost (<[ "markdownContent" := VStr (makeHtml (markdownContent p)) ]>
                    (toObject p))).
Proof.
  intros Hc Hf R callback. unfold getBlogPostByUrlTitle, execOne.
  rewrite Hc, head_run_findOne, Hf. simpl.
  by rewrite renderMarkdown_toObject.
Qed.

End UrlTitle.

Lemma matches_urlTitle u p : matches [UrlTitleIs u] p = true <-> urlTitle p = u.
Proof. simpl. by rewrite andb_true_r, String.eqb_eq. Qed.

(** Under the schema's [unique] index on [urlTitle], the lookup finds the
    stored post with that slug. *)
Lemma find_unique_urlTitle docs p :
  NoDup (map urlTitle docs) -> In p docs ->
  List.find (matches [UrlTitleIs (urlTitle p)]) docs = Some p.
Proof.
  induction docs as [|a docs IH]; simpl; [done|].
  intros Hnd [->|Hin].
  - by rewrite String.eqb_refl.
  - apply NoDup_cons in Hnd as [Ha Hnd].
    destruct (String.eqb (urlTitle a) (urlTitle p)) eqn:He; simpl.
    + apply String.eqb_eq in He. exfalso. apply Ha. rewrite He.
      apply list_elem_of_In, in_map, Hin.
    + by apply IH.
Qed.

Lemma successPost_inj d1 d2 : successPost d1 = successPost d2 -> d1 = d2.
Proof.
  intros H. apply (f_equal (fun e => e !! "post")) in H.
  change (Some (PPost d1) = Some (PPost d2)) in H. congruence.
Qed.

(** C2. [getBlogPostByUrlTitle] finds the stored post by its slug whatever
    the clock shows: with slugs unique, the post is delivered in a success
    response, so also when its [dateTimestamp] lies after the query time. *)
Theorem unpublished_post_still_returned (makeHtml : string -> string)
    (now : Z) (docs : list Post) (order : Query -> Post -> Post -> bool)
    (p : Post) :
  NoDup (map urlTitle docs) ->
  In p docs ->
  delivers (@getBlogPostByUrlTitle makeHtml (urlTitle p)
              {| unix := now; collection := Available docs; ties := order |})
    (successPost (<[ "markdownContent" := VStr (makeHtml (markdownContent p)) ]>
                    (toObject p))).
Proof.
  intros Hnd Hin. apply getBlogPostByUrlTitle_found with docs; [done|].
  by apply find_unique_urlTitle.
Qed.

Lemma unpublished_post_still_returned_witness :
  1000 < dateTimestamp (samplePost "b" 11000 ["js"; "css"]) /\
  delivers (@getBlogPostByUrlTitle toyHtml "b" sampleEnv)
    (successPost (<[ "markdownContent" := VStr "<p># b</p>" ]>
                    (toObject (samplePost "b" 11000 ["js"; "css"])))).
Proof.
  split; [reflexivity|].
  apply (unpublished_post_still_returned toyHtml 1000 sampleDocs storedOrder
           (samplePost "b" 11000 ["js"; "css"])).
  - apply (bool_decide_unpack _). vm_compute. exact I.
  - simpl. tauto.
Defined.

(** C6. [getBlogPostByUrlTitle] delivers one of three responses, told
    apart by their flag: [{getDataError: true}] when the query fails,
    [{notFoundError: true}] when no stored post has the slug, and
    [{success: true, post}] when one has, [post] being that document with
    [markdownContent] replaced by its HTML rendering. *)
Theorem url_title_lookup_outcomes (makeHtml : string -> string) (u : string)
    (env : Env) :
  ((exists err, collection env = Unavailable err) /\
   delivers (@getBlogPostByUrlTitle makeHtml u env) getDataError
   \/
   (exists docs, collection env = Available docs /\
      forall p, In p docs -> urlTitle p <> u) /\
   delivers (@getBlogPostByUrlTitle makeHtml u env) notFoundError
   \/
   exists docs p, collection env = Available docs /\ In p docs /\ urlTitle p = u /\
     delivers (@getBlogPostByUrlTitle makeHtml u env)
       (successPost (<[ "markdownContent" := VStr (makeHtml (markdownContent p)) ]>
                       (toObject p)))) /\
  flags getDataError = ["getDataError"] /\
  flags notFoundError = ["notFoundError"] /\
  (forall post, flags (successPost post) = ["success"]).
Proof.
  split; [|done].
  destruct (collection env) as [err|docs] eqn:Hc.
  - left. split; [by exists err|]. by apply getBlogPostByUrlTitle_unavailable with err.
  - right. destruct (List.find (matches [UrlTitleIs u]) docs) as [p|] eqn:Hf.
    + right. exists docs, p. apply find_some in Hf as Hp. destruct Hp as [Hin Hm].
      apply matches_urlTitle in Hm.
      repeat split; try done. by apply getBlogPostByUrlTitle_found with docs.
    + left. split; [|by apply getBlogPostByUrlTitle_missing with docs].
      exists docs. split; [done|]. intros p Hin Hu.
      apply (find_none _ _ Hf) in Hin. apply matches_urlTitle in Hu. congruence.
Qed.

(** C9. In a success response of [getBlogPostByUrlTitle] the post is a
    stored document with that slug: [markdownContent] holds the HTML
    rendering of the stored Markdown, and every other key (id, title,
    urlTitle, dateTimestamp, tags, thumbnailImageUrl, seoTitleTag,
    seoMetaDescription) holds what the stored document has. *)
Theorem single_post_other_fields_unchanged (makeHtml : string -> string)
    (u : string) (env : Env) (post : gmap string Value) :
  delivers (@getBlogPostByUrlTitle makeHtml u env) (successPost post) ->
  exists docs p,
    collection env = Available docs /\ In p docs /\ urlTitle p = u /\
    post !! "markdownContent" = Some (VStr (makeHtml (markdownContent p))) /\
    (forall k, k <> "markdownContent" -> post !! k = toObject p !! k) /\
    post !! "id" = Some (VStr (id p)) /\
    post !! "title" = Some (VStr (title p)) /\
    post !! "urlTitle" = Some (VStr (urlTitle p)) /\
    post !! "dateTimestamp" = Some (VNum (dateTimestamp p)) /\
    post !! "tags" = Some (VArr (tags p)) /\
    post !! "thumbnailImageUrl" = Some (VStr (thumbnailImageUrl p)) /\
    post !! "seoTitleTag" = Some (VStr (seoTitleTag p)) /\
    post !! "seoMetaDescription" = Some (VStr (seoMetaDescription p)).
Proof.
  intros H. destruct (collection env) as [err|docs] eqn:Hc.
  { apply (delivers_unique _ _ _
             (getBlogPostByUrlTitle_unavailable makeHtml u _ _ Hc)) in H.
    by apply (f_equal flags) in H. }
  destruct (List.find (matches [UrlTitleIs u]) docs) as [p|] eqn:Hf.
  - apply (delivers_unique _ _ _
             (getBlogPostByUrlTitle_found makeHtml u _ _ _ Hc Hf)) in H.
    apply successPost_inj in H. subst post.
    apply find_some in Hf as [Hin Hm]. apply matches_urlTitle in Hm.
    exists docs, p. repeat split; try done.
    intros k Hk. by rewrite lookup_insert_ne.
  - apply (delivers_unique _ _ _
             (getBlogPostByUrlTitle_missing makeHtml u _ _ Hc Hf)) in H.
    by apply (f_equal flags) in H.
Qed.

Lemma sample_by_url_title :
  delivers (@getBlogPostByUrlTitle toyHtml "b" sampleEnv)
    (successPost (<[ "markdownContent" := VStr "<p># b</p>" ]>
                    (toObject (samplePost "b" 11000 ["js"; "css"])))).
Proof. intros R callback. reflexivity. Defined.

Lemma single_post_other_fields_unchanged_witness :
  exists docs p,
    collection sampleEnv = Available docs /\ In p docs /\ urlTitle p = "b" /\
    (<[ "markdownContent" := VStr "<p># b</p>" ]>
       (toObject (samplePost "b" 11000 ["js"; "css"]))) !! "markdownContent"
      = Some (VStr (toyHtml (markdownContent p))) /\
    (forall k, k <> "markdownContent" ->
       (<[ "markdownContent" := VStr "<p># b</p>" ]>
          (toObject (samplePost "b" 11000 ["js"; "css"]))) !! k = toObject p !! k) /\
    (<[ "markdownContent" := VStr "<p># b</p>" ]>
       (toObject (samplePost "b" 11000 ["js"; "css"]))) !! "id" = Some (VStr (id p)) /\
    (<[ "markdownContent" := VStr "<p># b</p>" ]>
       (toObject (samplePost "b" 11000 ["js"; "css"]))) !! "title" = Some (VStr (title p)) /\
    (<[ "markdownContent" := VStr "<p># b</p>" ]>
       (toObject (samplePost "b" 11000 ["js"; "css"]))) !! "urlTitle"
      = Some (VStr (urlTitle p)) /\
    (<[ "markdownContent" := VStr "<p># b</p>" ]>
       (toObject (samplePost "b" 11000 ["js"; "css"]))) !! "dateTimestamp"
      = Some (VNum (dateTimestamp p)) /\
    (<[ "markdownContent" := VStr "<p># b</p>" ]>
       (toObject (samplePost "b" 11000 ["js"; "css"]))) !! "tags" = Some (VArr (tags p)) /\
    (<[ "markdownContent" := VStr "<p># b</p>" ]>
       (toObject (samplePost "b" 11000 ["js"; "css"]))) !! "thumbnailImageUrl"
      = Some (VStr (thumbnailImageUrl p)) /\
    (<[ "markdownContent" := VStr "<p># b</p>" ]>
       (toObject (samplePost "b" 11000 ["js"; "css"]))) !! "seoTitleTag"
      = Some (VStr (seoTitleTag p)) /\
    (<[ "markdownContent" := VStr "<p># b</p>" ]>
       (toObject (samplePost "b" 11000 ["js"; "css"]))) !! "seoMetaDescription"
      = Some (VStr (seoMetaDescription p)).
Proof.
  exact (single_post_other_fields_unchanged toyHtml "b" sampleEnv _ sample_by_url_title).
Defined.

(** C3, at a failed query: [getAllBlogPosts], [getBlogPostsByTag] and
    [getBlogPostByUrlTitle] deliver [{getDataError: true}];
    [getFiveNewestPosts] delivers an object whose only key is spelled
    [getdataError], which has no [getDataError] key and none of the
    documented flags. *)
Theorem storage_failure_responses (makeHtml : string -> string)
    (now : Z) (order : Query -> Post -> Post -> bool) (err tag u : string) :
  let env := {| unix := now; collection := Unavailable err; ties := order |} in
  delivers (@getAllBlogPosts env) getDataError /\
  delivers (@getBlogPostsByTag tag env) getDataError /\
  delivers (@getBlogPostByUrlTitle makeHtml u env) getDataError /\
  delivers (@getFiveNewestPosts env) {[ "getdataError" := PTrue ]} /\
  ~ delivers (@getFiveNewestPosts env) getDataError /\
  ({[ "getdataError" := PTrue ]} : gmap string Payload) !! "getDataError" = None /\
  flags {[ "getdataError" := PTrue ]} = [].
Proof.
  intros env. repeat split; try (intros R callback; reflexivity).
  intros H. specialize (H _ (fun e => e !! "getDataError")). discriminate H.
Qed.

(** The failed query on the sample clock: the response of
    [getFiveNewestPosts] is not the one its siblings give. *)
Example five_newest_on_failed_query :
  getFiveNewestPosts downEnv (fun e => e) = {[ "getdataError" := PTrue ]} /\
  getFiveNewestPosts downEnv (fun e => e !! "getDataError") = None /\
  getAllBlogPosts downEnv (fun e => e !! "getDataError") = Some PTrue.
Proof. repeat split. Qed.

(** ** Beyond the claims: what the listings hold *)

(** X1. Over an available store [getAllBlogPosts] leaves nothing out: its
    result is, up to order, the listing of every stored post dated at or
    before the query time (a post dated exactly at the query time
    included), each as often as it is stored. *)
Theorem all_published_posts_listed (env : Env) (docs : list Post) :
  collection env = Available docs ->
  exists all,
    delivers (@getAllBlogPosts env) (successPosts all) /\
    Permutation all
      (map listed (List.filter (fun p => dateTimestamp p <=? unix env) docs)) /\
    (forall p, In p docs -> dateTimestamp p <= unix env -> In (listed p) all).
Proof.
  intros Hc. eexists.
  split; [by apply getAllBlogPosts_available|]. split.
  - apply Permutation_map. unfold published.
    rewrite found_Permutation.
    erewrite filter_ext; [done|]. intros p. simpl. by rewrite andb_true_r.
  - intros p Hin Hle. apply in_map. by apply In_published.
Qed.

Lemma all_published_posts_listed_witness :
  exists all,
    delivers (@getAllBlogPosts sampleEnv) (successPosts all) /\
    Permutation all
      (map listed (List.filter (fun p => dateTimestamp p <=? unix sampleEnv) sampleDocs)) /\
    (forall p, In p sampleDocs -> dateTimestamp p <= unix sampleEnv -> In (listed p) all).
Proof. exact (all_published_posts_listed sampleEnv sampleDocs eq_refl). Defined.

(** X2. [getFiveNewestPosts] returns the five newest: its result has
    five objects, or as many as the full listing when that has fewer and
    then the same objects, and a listed object it leaves out is not newer
    than any it returns. *)
Theorem five_newest_are_the_newest (env : Env)
    (all five : list (gmap string Value)) :
  delivers (@getAllBlogPosts env) (successPosts all) ->
  delivers (@getFiveNewestPosts env) (successPosts five) ->
  length five = Nat.min 5 (length all) /\
  ((length all <= 5)%nat -> Permutation five all) /\
  (forall d d', In d all -> ~ In d five -> In d' five -> notOlder d' d).
Proof.
  intros Hall Hfive.
  pose proof (list_response_shape env "" all (or_introl Hall))
    as (docs & _ & Hc & _).
  apply (delivers_unique _ _ _ (getAllBlogPosts_available _ _ Hc)) in Hall.
  apply (delivers_unique _ _ _ (getFiveNewestPosts_available _ _ Hc)) in Hfive.
  apply successPosts_inj in Hall, Hfive. subst all five.
  set (A := published (ties env (fiveQuery (unix env))) (unix env) docs).
  set (B := published (ties env (allQuery (unix env))) (unix env) docs).
  assert (Permutation A B) as HAB.
  { unfold A, B, published. by rewrite !found_Permutation. }
  rewrite !length_map, <- (Permutation_length HAB). split; [apply length_firstn|].
  split.
  - intros Hlen. rewrite firstn_all2 by done. by apply Permutation_map.
  - intros d d' Hd Hnot Hd'.
    apply in_map_iff in Hd as (p & <- & Hp).
    apply in_map_iff in Hd' as (p' & <- & Hp').
    exists (dateTimestamp p'), (dateTimestamp p).
    rewrite !shownDate_listed. split; [done|]. split; [done|].
    apply (sorted_firstn_skipn newerOrSame 5 A); [apply published_sorted|done|].
    rewrite <- HAB, <- (firstn_skipn 5 A) in Hp.
    apply in_app_or in Hp as [Hp|Hp]; [|done].
    destruct Hnot. by apply in_map.
Qed.

Lemma five_newest_are_the_newest_witness :
  length (map listed
       [ samplePost "a" 1000 ["js"]; samplePost "d" 900 ["js"];
         samplePost "f" 900 ["html"]; samplePost "e" 500 [];
         samplePost "c" 400 ["css"] ]) =
    Nat.min 5 (length (map listed
       [ samplePost "a" 1000 ["js"]; samplePost "d" 900 ["js"];
         samplePost "f" 900 ["html"]; samplePost "e" 500 [];
         samplePost "c" 400 ["css"]; samplePost "g" 100 ["js"] ])) /\
  ((length (map listed
       [ samplePost "a" 1000 ["js"]; samplePost "d" 900 ["js"];
         samplePost "f" 900 ["html"]; samplePost "e" 500 [];
         samplePost "c" 400 ["css"]; samplePost "g" 100 ["js"] ]) <= 5)%nat ->
   Permutation
     (map listed
       [ samplePost "a" 1000 ["js"]; samplePost "d" 900 ["js"];
         samplePost "f" 900 ["html"]; samplePost "e" 500 [];
         samplePost "c" 400 ["css"] ])
     (map listed
       [ samplePost "a" 1000 ["js"]; samplePost "d" 900 ["js"];
         samplePost "f" 900 ["html"]; samplePost "e" 500 [];
         samplePost "c" 400 ["css"]; samplePost "g" 100 ["js"] ])) /\
  (forall d d',
     In d (map listed
       [ samplePost "a" 1000 ["js"]; samplePost "d" 900 ["js"];
         samplePost "f" 900 ["html"]; samplePost "e" 500 [];
         samplePost "c" 400 ["css"]; samplePost "g" 100 ["js"] ]) ->
     ~ In d (map listed
       [ samplePost "a" 1000 ["js"]; samplePost "d" 900 ["js"];
         samplePost "f" 900 ["html"]; samplePost "e" 500 [];
         samplePost "c" 400 ["css"] ]) ->
     In d' (map listed
       [ samplePost "a" 1000 ["js"]; samplePost "d" 900 ["js"];
         samplePost "f" 900 ["html"]; samplePost "e" 500 [];
         samplePost "c" 400 ["css"] ]) -> notOlder d' d).
Proof. exact (five_newest_are_the_newest sampleEnv _ _ sample_all sample_five). Defined.

(** X3. Over a fixed store the full listing only grows as time passes:
    the listing at an earlier time holds, up to order, the objects of the
    listing at a later time that are dated at or before the earlier time,
    so each of its objects is in the later listing; and it is the later
    listing with the later-dated objects taken out, in the same order,
    whenever no two objects of the later listing share a date. *)
Theorem listing_grows_with_time (docs : list Post) (now now' : Z)
    (order : Query -> Post -> Post -> bool) (later : list (gmap string Value)) :
  now <= now' ->
  delivers (@getAllBlogPosts
              {| unix := now'; collection := Available docs; ties := order |})
    (successPosts later) ->
  exists earlier,
    delivers (@getAllBlogPosts
                {| unix := now; collection := Available docs; ties := order |})
      (successPosts earlier) /\
    Permutation earlier (List.filter (shownBy now) later) /\
    (forall d, In d earlier -> In d later) /\
    (NoDup (map shownDate later) -> earlier = List.filter (shownBy now) later).
Proof.
  intros Hle Hlater.
  apply (delivers_unique _ _ _
           (getAllBlogPosts_available
              {| unix := now'; collection := Available docs; ties := order |}
              docs eq_refl)) in Hlater.
  apply successPosts_inj in Hlater. subst later. simpl.
  set (A := published (order (allQuery now)) now docs).
  set (B := published (order (allQuery now')) now' docs).
  set (old := fun p : Post => dateTimestamp p <=? now).
  assert (List.filter (shownBy now) (map listed B) = map listed (List.filter old B))
    as Hfilter.
  { rewrite filter_map_comm. f_equal; apply filter_ext; intros p;
      by rewrite shownBy_listed. }
  assert (Permutation A (List.filter old B)) as HAB.
  { unfold A, B, published. rewrite found_Permutation.
    rewrite (Permutation_filter _ _ _ (found_Permutation _ _ docs)).
    rewrite <- filter_filter_andb.
    erewrite filter_ext; [done|]. intros p. unfold old. simpl. lia. }
  exists (map listed A). split.
  { by apply (getAllBlogPosts_available
                {| unix := now; collection := Available docs; ties := order |}). }
  rewrite Hfilter. split; [by apply Permutation_map|]. split.
  - intros d Hd. apply in_map_iff in Hd as (p & <- & Hp). apply in_map.
    apply (Permutation_in _ HAB) in Hp. by apply filter_In in Hp as [Hp _].
  - intros Hnd. apply NoDup_shown_dates in Hnd. f_equal.
    apply newest_first_unique.
    + apply (NoDup_map_Permutation _ (List.filter old B)); [done|].
      by apply NoDup_map_filter.
    + apply published_sorted.
    + apply StronglySorted_filter, published_sorted.
    + exact HAB.
Qed.

Lemma listing_grows_with_time_witness :
  exists earlier,
    delivers (@getAllBlogPosts
                {| unix := 500; collection := Available sampleDocs; ties := storedOrder |})
      (successPosts earlier) /\
    Permutation earlier
      (List.filter (shownBy 500) (map listed
         [ samplePost "a" 1000 ["js"]; samplePost "d" 900 ["js"];
           samplePost "f" 900 ["html"]; samplePost "e" 500 [];
           samplePost "c" 400 ["css"]; samplePost "g" 100 ["js"] ])) /\
    (forall d, In d earlier ->
       In d (map listed
         [ samplePost "a" 1000 ["js"]; samplePost "d" 900 ["js"];
           samplePost "f" 900 ["html"]; samplePost "e" 500 [];
           samplePost "c" 400 ["css"]; samplePost "g" 100 ["js"] ])) /\
    (NoDup (map shownDate (map listed
         [ samplePost "a" 1000 ["js"]; samplePost "d" 900 ["js"];
           samplePost "f" 900 ["html"]; samplePost "e" 500 [];
           samplePost "c" 400 ["css"]; samplePost "g" 100 ["js"] ])) ->
     earlier =
       List.filter (shownBy 500) (map listed
         [ samplePost "a" 1000 ["js"]; samplePost "d" 900 ["js"];
           samplePost "f" 900 ["html"]; samplePost "e" 500 [];
           samplePost "c" 400 ["css"]; samplePost "g" 100 ["js"] ])).
Proof.
  apply (listing_grows_with_time sampleDocs 500 1000 storedOrder).
  - lia.
  - exact sample_all.
Defined.





(** ** Beyond the claims: listings and the single-post lookup together *)

(** X5. Every entry of a listing opens: with slugs unique in the store,
    looking up the [urlTitle] an object of a successful list result shows
    succeeds, and the post delivered agrees with that object on every key
    the object has. *)
Theorem listed_entry_opens (makeHtml : string -> string) (env : Env)
    (docs : list Post) (tag : string) (l : list (gmap string Value))
    (d : gmap string Value) :
  collection env = Available docs ->
  NoDup (map urlTitle docs) ->
  delivers (@getAllBlogPosts env) (successPosts l) \/
  delivers (@getBlogPostsByTag tag env) (successPosts l) \/
  delivers (@getFiveNewestPosts env) (successPosts l) ->
  In d l ->
  exists u post,
    d !! "urlTitle" = Some (VStr u) /\
    delivers (@getBlogPostByUrlTitle makeHtml u env) (successPost post) /\
    (forall k, is_Some (d !! k) -> post !! k = d !! k).
Proof.
  intros Hc Hnd H Hd.
  apply list_response_shape in H as (docs' & ps & Hc' & -> & Hps & _).
  rewrite Hc in Hc'. injection Hc' as <-.
  apply in_map_iff in Hd as (p & <- & Hp). apply Hps in Hp as [Hp _].
  exists (urlTitle p),
    (<[ "markdownContent" := VStr (makeHtml (markdownContent p)) ]> (toObject p)).
  split; [apply listed_urlTitle|]. split.
  - apply getBlogPostByUrlTitle_found with docs; [done|].
    by apply find_unique_urlTitle.
  - intros k Hk. apply listed_is_Some in Hk as Hk'.
    rewrite listed_lookup_kept by done. apply lookup_insert_ne.
    intros <-. apply kept_keys in Hk'.
    repeat (apply elem_of_cons in Hk' as [Hk'|Hk']; [discriminate|]).
    by apply elem_of_nil in Hk'.
Qed.

Lemma sampleDocs_unique : NoDup (map urlTitle sampleDocs).
Proof. apply (bool_decide_unpack _). vm_compute. exact I. Defined.

Lemma listed_entry_opens_witness :
  exists u post,
    listed (samplePost "d" 900 ["js"]) !! "urlTitle" = Some (VStr u) /\
    delivers (@getBlogPostByUrlTitle toyHtml u sampleEnv) (successPost post) /\
    (forall k, is_Some (listed (samplePost "d" 900 ["js"]) !! k) ->
       post !! k = listed (samplePost "d" 900 ["js"]) !! k).
Proof.
  apply (listed_entry_opens toyHtml sampleEnv sampleDocs "js" _ _ eq_refl
           sampleDocs_unique (or_intror (or_introl sample_by_tag))).
  simpl. tauto.
Defined.

(** Posts with different slugs have different listings. *)
Lemma NoDup_listed ps : NoDup (map urlTitle ps) -> NoDup (map listed ps).
Proof.
  induction ps as [|a ps IH]; simpl; [constructor|].
  rewrite !NoDup_cons. intros [Ha Hps]. split; [|by apply IH].
  intros Hin. apply Ha. apply list_elem_of_In in Hin. apply list_elem_of_In.
  apply in_map_iff in Hin as (x & Heq & Hx).
  apply (f_equal (fun d => d !! "urlTitle")) in Heq.
  rewrite !listed_urlTitle in Heq. injection Heq as <-. by apply in_map.
Qed.

(** X7. With slugs unique in the store, no successful list result holds
    the same object twice. *)
Theorem no_post_listed_twice (env : Env) (docs : list Post) (tag : string)
    (l : list (gmap string Value)) :
  collection env = Available docs ->
  NoDup (map urlTitle docs) ->
  delivers (@getAllBlogPosts env) (successPosts l) \/
  delivers (@getBlogPostsByTag tag env) (successPosts l) \/
  delivers (@getFiveNewestPosts env) (successPosts l) ->
  NoDup l.
Proof.
  intros Hc Hnd H.
  assert (forall tie cs, NoDup (map urlTitle (found tie cs docs))) as Hfound.
  { intros tie cs.
    apply (NoDup_map_Permutation _ (List.filter (matches cs) docs)).
    - symmetry. apply found_Permutation.
    - by apply NoDup_map_filter. }
  destruct H as [H|[H|H]].
  - apply (delivers_unique _ _ _ (getAllBlogPosts_available _ _ Hc)) in H.
    apply successPosts_inj in H. subst l. apply NoDup_listed, Hfound.
  - apply (delivers_unique _ _ _ (getBlogPostsByTag_available tag _ _ Hc)) in H.
    apply successPosts_inj in H. subst l. apply NoDup_listed, Hfound.
  - apply (delivers_unique _ _ _ (getFiveNewestPosts_available _ _ Hc)) in H.
    apply successPosts_inj in H. subst l.
    apply NoDup_listed, NoDup_map_firstn, Hfound.
Qed.

Lemma no_post_listed_twice_witness :
  NoDup (map listed
       [ samplePost "a" 1000 ["js"]; samplePost "d" 900 ["js"];
         samplePost "f" 900 ["html"]; samplePost "e" 500 [];
         samplePost "c" 400 ["css"] ]).
Proof.
  exact (no_post_listed_twice sampleEnv sampleDocs "js" _ eq_refl
           sampleDocs_unique (or_intror (or_intror sample_five))).
Defined.

(** ** Beyond the claims: the connection string *)

Lemma append_cons x (a b : string) : (String x a ++ b = String x (a ++ b))%string.
Proof. reflexivity. Qed.

Lemma append_nil_l (b : string) : ("" ++ b = b)%string.
Proof. reflexivity. Qed.

Lemma append_assoc (a b c : string) : ((a ++ b) ++ c = a ++ (b ++ c))%string.
Proof.
  induction a as [|x a IH]; [done|]. by rewrite !append_cons, IH.
Qed.

Lemma length_append (a b : string) :
  String.length (a ++ b) = (String.length a + String.length b)%nat.
Proof.
  induction a as [|x a IH]; [done|]. rewrite append_cons. simpl. by rewrite IH.
Qed.

Lemma append_cancel_r (a b s : string) : (a ++ s = b ++ s)%string -> a = b.
Proof.
  revert b. induction a as [|x a IH]; intros [|y b] H;
    rewrite ?append_cons, ?append_nil_l in H.
  - done.
  - apply (f_equal String.length) in H. simpl in H. rewrite length_append in H. lia.
  - apply (f_equal String.length) in H. simpl in H. rewrite length_append in H. lia.
  - injection H as -> H. f_equal. by apply IH.
Qed.

(** Two texts without a colon, each followed by a colon and more, agree
    up to the colon when the whole agrees. *)
Lemma split_at_colon (u u' r r' : string) :
  hasColon u = false -> hasColon u' = false ->
  (u ++ ":" ++ r = u' ++ ":" ++ r')%string -> u = u' /\ r = r'.
Proof.
  revert u'. induction u as [|x u IH]; intros [|y u'] Hu Hu' H;
    rewrite ?append_cons, ?append_nil_l in H; simpl in Hu, Hu'.
  - by injection H as ->.
  - injection H as <- _. by rewrite Ascii.eqb_refl in Hu'.
  - injection H as -> _. by rewrite Ascii.eqb_refl in Hu.
  - injection H as -> H.
    destruct (Ascii.eqb y ":"); [done|].
    by destruct (IH u' Hu Hu' H) as [-> ->].
Qed.

(** X9. The credentials go into the connection string as they are, with
    no escaping: a colon moved from the user name to the password gives
    the same string. *)
Theorem mongoString_does_not_escape (processEnv : gmap string string)
    (a b c : string) :
  mongoString (<[ "DB_USERNAME" := (a ++ ":" ++ b)%string ]>
                 (<[ "DB_PASSWORD" := c ]> processEnv)) =
  mongoString (<[ "DB_USERNAME" := a ]>
                 (<[ "DB_PASSWORD" := (b ++ ":" ++ c)%string ]> processEnv)).
Proof.
  unfold mongoString, interpolate.
  rewrite !lookup_insert_eq, !(lookup_insert_ne _ "DB_USERNAME" "DB_PASSWORD") by done.
  rewrite !lookup_insert_eq. f_equal. by rewrite !append_assoc.
Qed.

(** X10. With no colon in either user name, the connection string tells
    the credentials apart: two environments that give the same string
    give the same user name and the same password (an unset variable
    counting as the text it is rendered to). *)
Theorem mongoString_tells_credentials_apart (env1 env2 : gmap string string) :
  hasColon (interpolate env1 "DB_USERNAME") = false ->
  hasColon (interpolate env2 "DB_USERNAME") = false ->
  mongoString env1 = mongoString env2 ->
  interpolate env1 "DB_USERNAME" = interpolate env2 "DB_USERNAME" /\
  interpolate env1 "DB_PASSWORD" = interpolate env2 "DB_PASSWORD".
Proof.
  intros H1 H2 H. unfold mongoString in H.
  apply (String.app_inj "mongodb+srv://") in H.
  apply split_at_colon in H as [Hu Hp]; [|done|done].
  split; [done|]. by apply append_cancel_r in Hp.
Qed.

Lemma mongoString_tells_credentials_apart_witness :
  interpolate {[ "DB_USERNAME" := "oron"; "DB_PASSWORD" := "p:w" ]} "DB_USERNAME" =
    interpolate {[ "DB_PASSWORD" := "p:w"; "DB_USERNAME" := "oron"; "PORT" := "80" ]}
      "DB_USERNAME" /\
  interpolate {[ "DB_USERNAME" := "oron"; "DB_PASSWORD" := "p:w" ]} "DB_PASSWORD" =
    interpolate {[ "DB_PASSWORD" := "p:w"; "DB_USERNAME" := "oron"; "PORT" := "80" ]}
      "DB_PASSWORD".
Proof.
  apply (mongoString_tells_credentials_apart
           {[ "DB_USERNAME" := "oron"; "DB_PASSWORD" := "p:w" ]}
           {[ "DB_PASSWORD" := "p:w"; "DB_USERNAME" := "oron"; "PORT" := "80" ]});
    reflexivity.
Defined.
